(** * py-company-task-manager: the request handlers of [core/views.py]

    A shallow embedding of the views of the task manager over an explicit
    relational store.  Tables are finite maps from primary keys to rows, the
    many-to-many relation between tasks and workers is the set of rows of its
    through table, and a view that writes is a function from the store to an
    outcome and the store it leaves behind. *)

From Stdlib Require Import ZArith Ascii String.
From stdpp Require Import gmap strings list fin_maps.

Local Open Scope Z_scope.
Local Open Scope string_scope.

(** ** The relational model *)

(** Modelled from the spec: [core/models.py] is not among the sources.  A
    task has a name, a description, a deadline (a date, kept as its
    proleptic ordinal), a priority label, a completion flag, a task type and
    a project. *)
Module Task.
Record t := mk {
  name : string;
  description : string;
  deadline : Z;
  priority : string;
  is_completed : bool;
  task_type_id : Z;
  project_id : Z
}.

Definition set_is_completed (b : bool) (task : t) : t :=
  {| name := name task; description := description task;
     deadline := deadline task; priority := priority task;
     is_completed := b; task_type_id := task_type_id task;
     project_id := project_id task |}.
End Task.

(** Modelled from the spec: [core/models.py] is not among the sources.  A
    worker is a user with first and last name, a position and a project. *)
Module Worker.
Record t := mk {
  username : string;
  first_name : string;
  last_name : string;
  position_id : Z;
  project_id : Z
}.
End Worker.

(** The persistent store: the task table, the worker table, and the rows
    [(task_id, worker_id)] of the through table of [Task.assignees]. *)
Record Store := mkStore {
  tasks : gmap Z Task.t;
  workers : gmap Z Worker.t;
  task_assignees : gset (Z * Z)
}.

Definition set_tasks (f : gmap Z Task.t → gmap Z Task.t) (st : Store) : Store :=
  {| tasks := f (tasks st); workers := workers st;
     task_assignees := task_assignees st |}.

Definition set_task_assignees (f : gset (Z * Z) → gset (Z * Z)) (st : Store)
  : Store :=
  {| tasks := tasks st; workers := workers st;
     task_assignees := f (task_assignees st) |}.

(** ** Requests and responses *)

Inductive Method := GET | POST.

(** [request.user]: the anonymous user, or the worker row the session
    middleware loaded for this request together with its primary key. *)
Inductive User :=
| AnonymousUser
| Authenticated (pk : Z) (row : Worker.t).

Record HttpRequest := mkRequest {
  method : Method;
  user : User;
  absolute_uri : string;          (* request.build_absolute_uri() *)
  GET_filters : list string;      (* request.GET.getlist("filters") *)
  GET_name : option string        (* request.GET.get("name") *)
}.

(** The routing table is not part of the sources, so a reversed URL is kept
    symbolic: the name of the route and its positional arguments.  The
    other URL the views redirect to is the login page. *)
Inductive Url :=
| reverse (viewname : string) (args : list Z)
| login_url.

Inductive Response :=
| HttpResponse (content : string) (status : Z)
| HttpResponseRedirect (redirect_to : Url)
| TemplateResponse (template_name : string).

Definition status_code (r : Response) : Z :=
  match r with
  | HttpResponse _ status => status
  | HttpResponseRedirect _ => 302
  | TemplateResponse _ => 200
  end.

(** ** Views as store transformers that may raise *)

Inductive Exception :=
  DoesNotExist | Http404 | IndexError | ValueError | AttributeError.

Inductive Result (A : Type) :=
| Ok (a : A)
| Raise (e : Exception).
Arguments Ok {A} a.
Arguments Raise {A} e.

(** No transaction spans a request: an exception leaves the writes made
    before it in place, so the store is threaded through both outcomes. *)
Definition View (A : Type) : Type := Store → Result A * Store.

Definition ret {A} (a : A) : View A := λ st, (Ok a, st).

Definition raise {A} (e : Exception) : View A := λ st, (Raise e, st).

Definition bind {A B} (m : View A) (k : A → View B) : View B :=
  λ st, match m st with
        | (Ok a, st') => k a st'
        | (Raise e, st') => (Raise e, st')
        end.

#[export] Instance View_ret : MRet View := @ret.
#[export] Instance View_bind : MBind View := λ A B k m, bind m k.

(** ** The ORM calls the views make *)

(** [Task.objects.get(pk=pk)] *)
Definition Task_objects_get (pk : Z) : View Task.t :=
  λ st, match tasks st !! pk with
        | Some task => (Ok task, st)
        | None => (Raise DoesNotExist, st)
        end.

(** [Task.objects.prefetch_related("assignees")]: every row of the table. *)
Definition Task_objects : View (gmap Z Task.t) :=
  λ st, (Ok (tasks st), st).

(** [get_user_model().objects.all()] *)
Definition Worker_objects_all : View (gmap Z Worker.t) :=
  λ st, (Ok (workers st), st).

(** [get_user_model().objects.count()] *)
Definition Worker_objects_count : View nat :=
  λ st, (Ok (size (workers st)), st).

(** [task.save()]: every column of the row is written back under its key. *)
Definition Task_save (pk : Z) (task : Task.t) : View unit :=
  λ st, (Ok tt, set_tasks <[pk := task]> st).

(** [task.delete()]: the row goes, and with it its through-table rows. *)
Definition Task_delete (pk : Z) : View unit :=
  λ st, (Ok tt,
         set_task_assignees (filter (λ row, row.1 ≠ pk))
           (set_tasks (delete pk) st)).

(** [u in task.assignees.all()]: model instances compare by primary key, and
    the anonymous user is no model instance at all. *)
Definition in_assignees (u : User) (task_pk : Z) : View bool :=
  λ st, match u with
        | AnonymousUser => (Ok false, st)
        | Authenticated pk _ =>
            (Ok (bool_decide ((task_pk, pk) ∈ task_assignees st)), st)
        end.

(** ** [toggle_completed] *)

Definition toggle_completed (request : HttpRequest) (pk : Z) : View Response :=
  task ← Task_objects_get pk;
  member ← in_assignees (user request) pk;
  if (member : bool) then
    let task := Task.set_is_completed (negb (Task.is_completed task)) task in
    Task_save pk task;;
    mret (HttpResponseRedirect (reverse "core:task-detail" [pk]))
  else
    mret (HttpResponse "Unauthorized" 405).

(** The store an authorised call leaves: the row of the task saved with
    its flag negated. *)
Definition toggled (pk : Z) (task : Task.t) (st : Store) : Store :=
  set_tasks
    <[pk := Task.set_is_completed (negb (Task.is_completed task)) task]> st.

(** ** Python and lookup helpers *)

(** [s.split(sep)] for a one-character separator: every occurrence cuts, so
    adjacent separators give empty pieces and the result is never empty. *)
Fixpoint split (sep : ascii) (s : string) : list string :=
  match s with
  | EmptyString => [EmptyString]
  | String c rest =>
      if Ascii.eqb c sep then EmptyString :: split sep rest
      else match split sep rest with
           | piece :: pieces => String c piece :: pieces
           | [] => [String c EmptyString]
           end
  end.

(** [l[i]] *)
Definition index {A} (l : list A) (i : nat) : View A :=
  λ st, match l !! i with
        | Some x => (Ok x, st)
        | None => (Raise IndexError, st)
        end.

(** ASCII case folding, the part of the case-insensitive comparison of
    [icontains] that every database backend shares. *)
Definition lower_ascii (c : ascii) : ascii :=
  let n := nat_of_ascii c in
  if ((65 <=? n) && (n <=? 90))%nat then ascii_of_nat (n + 32) else c.

Fixpoint lower (s : string) : string :=
  match s with
  | EmptyString => EmptyString
  | String c rest => String (lower_ascii c) (lower rest)
  end.

Fixpoint startswith (s p : string) : bool :=
  match p, s with
  | EmptyString, _ => true
  | String _ _, EmptyString => false
  | String a p', String b s' => Ascii.eqb a b && startswith s' p'
  end.

Fixpoint contains (s sub : string) : bool :=
  startswith s sub ||
  match s with
  | EmptyString => false
  | String _ rest => contains rest sub
  end.

(** The [icontains] lookup: [value] holds [pattern] as a substring, the
    case of the ASCII letters ignored. *)
Definition icontains (value pattern : string) : bool :=
  contains (lower value) (lower pattern).

(** What the comparison is measured against, written down without
    [lower_ascii]: the twenty-six capital letters of ASCII and the small
    letter each one is read as. *)
Definition ascii_uppercase : string := "ABCDEFGHIJKLMNOPQRSTUVWXYZ".

Definition ascii_lowercase : string := "abcdefghijklmnopqrstuvwxyz".

(** [str.translate] over the table made of [source] and [target]: a
    character of [source] becomes the character of [target] at the same
    place, any other character is kept. *)
Fixpoint translate (source target : string) (c : ascii) : ascii :=
  match source, target with
  | String x source', String y target' =>
      if Ascii.eqb c x then y else translate source' target' c
  | _, _ => c
  end.

Fixpoint fold_ascii (s : string) : string :=
  match s with
  | EmptyString => EmptyString
  | String c rest =>
      String (translate ascii_uppercase ascii_lowercase c) (fold_ascii rest)
  end.

(** [sub] occurs in [s] when the case of the ASCII letters is ignored and
    every other byte, those of a letter outside ASCII among them, is
    compared as it stands. *)
Definition occurs_ignoring_ascii_case (sub s : string) : Prop :=
  ∃ before after, fold_ascii s = before +:+ fold_ascii sub +:+ after.




(** A plain reader of non-negative decimal numerals, one instance of the
    conversion the ORM applies to the value of an integer lookup. *)
Definition digit (c : ascii) : option Z :=
  let n := nat_of_ascii c in
  if ((48 <=? n) && (n <=? 57))%nat then Some (Z.of_nat n - 48) else None.

Fixpoint decimal_from (acc : Z) (s : string) : option Z :=
  match s with
  | EmptyString => Some acc
  | String c rest =>
      match digit c with
      | Some d => decimal_from (10 * acc + d) rest
      | None => None
      end
  end.

Definition decimal (s : string) : option Z :=
  match s with
  | EmptyString => None
  | _ => decimal_from 0 s
  end.

(** ** [TaskListView] *)

Module TaskListView.
Section get_queryset.
(** Python's [int] on the path segment, as the ORM applies it when it
    prepares the value of the [project_id] lookup; [None] stands for
    its [ValueError]. *)
Variable int : string → option Z.
(** [date.today()] *)
Variable today : Z.

Definition filter_project_id (project_id : string)
    (queryset : gmap Z Task.t) : View (gmap Z Task.t) :=
  λ st, match int project_id with
        | Some p =>
            (Ok (filter (λ row, Task.project_id row.2 = p) queryset), st)
        | None => (Raise ValueError, st)
        end.

Definition get_queryset (request : HttpRequest) : View (gmap Z Task.t) :=
  queryset ← Task_objects;
  project_id ← index (split "/" (absolute_uri request)) 4;
  queryset ← filter_project_id project_id queryset;
  let filters := GET_filters request in
  let queryset :=
    if bool_decide ("past_dl" ∈ filters)
    then filter (λ row, Task.deadline row.2 < today) queryset
    else queryset in
  let queryset :=
    if bool_decide ("urgent" ∈ filters)
    then filter (λ row, Task.priority row.2 = "Urgent") queryset
    else queryset in
  let queryset :=
    if bool_decide ("done" ∈ filters)
    then filter (λ row, Task.is_completed row.2 = true) queryset
    else filter (λ row, Task.is_completed row.2 = false) queryset in
  mret queryset.
End get_queryset.
End TaskListView.

(** The rows a listing is meant to hold: those of the project, past their
    deadline when [past_dl] is asked for, urgent when [urgent] is asked for,
    and completed exactly when [done] is asked for. *)
Definition selected (today : Z) (filters : list string) (project : Z)
    (task : Task.t) : Prop :=
  Task.project_id task = project
  ∧ ("past_dl" ∈ filters → Task.deadline task < today)
  ∧ ("urgent" ∈ filters → Task.priority task = "Urgent")
  ∧ Task.is_completed task = bool_decide ("done" ∈ filters).

(** ** [TaskUpdateView] and [TaskDeleteView] *)

(** [SingleObjectMixin.get_object]: the row under the key of the URL, or
    [Http404]. *)
Definition get_object (pk : Z) : View Task.t :=
  λ st, match tasks st !! pk with
        | Some task => (Ok task, st)
        | None => (Raise Http404, st)
        end.

(** [request.user.project], compared by primary key. *)
Definition user_project (u : User) : View Z :=
  λ st, match u with
        | Authenticated _ row => (Ok (Worker.project_id row), st)
        | AnonymousUser => (Raise AttributeError, st)
        end.

(** What the two classes share: the guard their [get] puts in front of the
    inherited handler, and the URL they redirect to after a write. *)
Section TaskObjectView.
(** [super().get]: the inherited handler loads the object again and
    renders the page of the view. *)
Variable template_name : string.

Definition super_get (pk : Z) : View Response :=
  get_object pk;;
  mret (TemplateResponse template_name).

Definition guarded_get (request : HttpRequest) (pk : Z) : View Response :=
  obj ← get_object pk;
  project ← user_project (user request);
  if bool_decide (Task.project_id obj ≠ project) then
    mret (HttpResponse "Unauthorized" 405)
  else
    super_get pk.

Definition get_success_url (pk : Z) : View Url :=
  obj ← get_object pk;
  mret (reverse "core:task-list" [Task.project_id obj]).

(** [LoginRequiredMixin.dispatch] followed by [View.dispatch]: an
    anonymous request is sent to the login page, any other goes to the
    handler named after its method. *)
Definition dispatch_with (get post : HttpRequest → Z → View Response)
    (request : HttpRequest) (pk : Z) : View Response :=
  match user request with
  | AnonymousUser => mret (HttpResponseRedirect login_url)
  | Authenticated _ _ =>
      match method request with
      | GET => get request pk
      | POST => post request pk
      end
  end.
End TaskObjectView.

Module TaskDeleteView.
Definition template_name := "core/task_confirm_delete.html".

Definition get : HttpRequest → Z → View Response :=
  guarded_get template_name.

Definition get_success_url : Z → View Url := get_success_url.

(** The class body has no [post]: the handler is the one of
    [generic.DeleteView], which loads the object, asks for the success
    URL, deletes the object and redirects. *)
Definition post (request : HttpRequest) (pk : Z) : View Response :=
  get_object pk;;
  success_url ← get_success_url pk;
  Task_delete pk;;
  mret (HttpResponseRedirect success_url).

Definition dispatch : HttpRequest → Z → View Response :=
  dispatch_with get post.
End TaskDeleteView.

Module TaskUpdateView.
Definition template_name := "core/task_form.html".

Definition get : HttpRequest → Z → View Response :=
  guarded_get template_name.

Definition get_success_url : Z → View Url := get_success_url.

Section post.
(** [core/forms.py] is not among the sources.  [TaskForm] is taken as
    given: bound to the request and to the loaded row it either fails
    validation ([None]) or yields the row that [form.save()] writes
    and the workers it assigns. *)
Variable TaskForm : HttpRequest → Task.t → option (Task.t * gset Z).

Definition form_save (pk : Z) (cleaned : Task.t * gset Z) : View unit :=
  λ st, (Ok tt,
         set_task_assignees
           (λ rows, filter (λ row, row.1 ≠ pk) rows
                    ∪ set_map (λ w, (pk, w)) cleaned.2)
           (set_tasks <[pk := cleaned.1]> st)).

(** The class body has no [post]: the handler is the one of
    [generic.UpdateView], which loads the object, binds the form, and
    saves and redirects when the form is valid. *)
Definition post (request : HttpRequest) (pk : Z) : View Response :=
  obj ← get_object pk;
  match TaskForm request obj with
  | Some cleaned =>
      form_save pk cleaned;;
      success_url ← get_success_url pk;
      mret (HttpResponseRedirect success_url)
  | None => mret (TemplateResponse template_name)
  end.

Definition dispatch : HttpRequest → Z → View Response :=
  dispatch_with get post.
End post.
End TaskUpdateView.

(** ** A small store to run the views on

    Project 1 has two tasks, T1 (not done, urgent, due the day before
    [today]) assigned to Ana, and T2 (done); Ana and Juliana work for
    project 1, Bob for project 2. *)
Module Sample.
Definition today : Z := 739000.

Definition T1 : Task.t :=
  Task.mk "Release notes" "Draft them" 738999 "Urgent" false 1 1.

Definition T2 : Task.t :=
  Task.mk "Changelog" "Update it" 739010 "Low" true 1 1.

Definition ana : Worker.t := Worker.mk "ana" "Ana" "Smith" 1 1.

Definition juliana : Worker.t := Worker.mk "juliana" "Juliana" "Ruiz" 1 1.

Definition bob : Worker.t := Worker.mk "bob" "Bob" "Lee" 1 2.

Definition store : Store :=
  {| tasks := {[1 := T1; 2 := T2]};
     workers := {[5 := ana; 6 := juliana; 7 := bob]};
     task_assignees := {[(1, 5)]} |}.

Definition request_as (pk : Z) (row : Worker.t) (m : Method)
    (uri : string) (filters : list string) (name : option string)
  : HttpRequest :=
  {| method := m; user := Authenticated pk row; absolute_uri := uri;
     GET_filters := filters; GET_name := name |}.

(** Bob acts on task 1, which is not of his project and not his. *)
Definition bob_on_task_1 (m : Method) : HttpRequest :=
  request_as 7 bob m "http://testserver/tasks/1/delete/" [] None.

(** Ana acts on task 1, which is assigned to her. *)
Definition ana_on_task_1 : HttpRequest :=
  request_as 5 ana POST "http://testserver/tasks/1/toggle/" [] None.

(** Ana lists the tasks of project 1. *)
Definition task_list (filters : list string) : HttpRequest :=
  request_as 5 ana GET "http://testserver/projects/1/tasks/" filters None.

(** Ana lists the workers. *)
Definition worker_list (name : option string) : HttpRequest :=
  request_as 5 ana GET "http://testserver/workers/" [] name.
End Sample.

(** A worker whose first name starts with a capital letter outside ASCII,
    and a search for that name in small letters. *)
Module Accented.
Definition elodie : Worker.t := Worker.mk "elodie" "Élodie" "Dupont" 1 1.

Definition store : Store :=
  {| tasks := ∅; workers := {[8 := elodie]}; task_assignees := ∅ |}.

End Accented.

(** ** [WorkerListView] *)

Module WorkerListView.
(** [if name:] is false for a missing parameter and for the empty
    string. *)
Definition truthy (name : option string) : bool :=
  match name with
  | None => false
  | Some EmptyString => false
  | Some (String _ _) => true
  end.

Definition get_queryset (request : HttpRequest) : View (gmap Z Worker.t) :=
  let name := GET_name request in
  queryset ← Worker_objects_all;
  if truthy name then
    let name := default "" name in
    mret (filter (λ row, icontains (Worker.first_name row.2) name
                         || icontains (Worker.last_name row.2) name = true)
            queryset)
  else
    mret queryset.

(** The entries the method adds to the context of the inherited one. *)
Record Context := mkContext {
  search_form : string;        (* WorkerNameSearch(initial={"name": name}) *)
  num_workers : nat
}.

Definition get_context_data (request : HttpRequest) : View Context :=
  let name := default "" (GET_name request) in
  count ← Worker_objects_count;
  mret {| search_form := name; num_workers := count |}.
End WorkerListView.

(** ** [index] *)

(** [get_user_model().objects.filter(project=p).count()] *)
Definition Worker_count_project (project : Z) : View nat :=
  λ st, (Ok (size (filter (λ row, Worker.project_id row.2 = project)
                     (workers st))), st).

(** [Task.objects.filter(project=p).count()] *)
Definition Task_count_project (project : Z) : View nat :=
  λ st, (Ok (size (filter (λ row, Task.project_id row.2 = project)
                     (tasks st))), st).

(** [Task.objects.filter(is_completed=True, project=p).count()] *)
Definition Task_count_done_project (project : Z) : View nat :=
  λ st, (Ok (size (filter (λ row, Task.is_completed row.2 = true
                                  ∧ Task.project_id row.2 = project)
                     (tasks st))), st).

Module Dashboard.
Record Context := mkContext {
  workers_amount : nat;
  tasks_total_amount : nat;
  tasks_done : nat
}.

(** What the decorated view answers: the page rendered from a context, or
    the redirect [login_required] sends an anonymous request to. *)
Inductive Rendered :=
| render (template_name : string) (context : Context)
| redirect_to_login.

Definition index (request : HttpRequest) : View Rendered :=
  match user request with
  | AnonymousUser => mret redirect_to_login
  | Authenticated _ _ =>
      workers_amount ← (project ← user_project (user request);
                        Worker_count_project project);
      tasks_total_amount ← (project ← user_project (user request);
                            Task_count_project project);
      tasks_done ← (project ← user_project (user request);
                    Task_count_done_project project);
      let context :=
        {| workers_amount := workers_amount;
           tasks_total_amount := tasks_total_amount;
           tasks_done := tasks_done |} in
      mret (render "core/index.html" context)
  end.
End Dashboard.

(** ** [TaskCreateView] *)

Module TaskCreateView.
Definition get_success_url (request : HttpRequest) : View Url :=
  project ← user_project (user request);
  mret (reverse "core:task-list" [project]).
End TaskCreateView.

(** ** [WorkerUpdateView] *)

Module WorkerUpdateView.
(** [get_user_model().objects.filter(pk=self.request.user.pk)]: the key of
    the anonymous user is [None], which no row has. *)
Definition get_queryset (request : HttpRequest) : View (gmap Z Worker.t) :=
  λ st, match user request with
        | Authenticated pk _ =>
            (Ok (filter (λ row, row.1 = pk) (workers st)), st)
        | AnonymousUser => (Ok ∅, st)
        end.
End WorkerUpdateView.

(** ** Companions of [split] *)

(** [sep.join(pieces)] *)
Fixpoint join (sep : ascii) (pieces : list string) : string :=
  match pieces with
  | [] => EmptyString
  | [piece] => piece
  | piece :: rest => piece +:+ String sep (join sep rest)
  end.

(** [s.count(c)] for a one-character [c] *)
Fixpoint count (c : ascii) (s : string) : nat :=
  match s with
  | EmptyString => 0
  | String a rest => (if Ascii.eqb a c then 1 else 0) + count c rest
  end.

(** * Properties *)

(** ** Running a view *)

Lemma bind_Ok {A B} (m : View A) (k : A → View B) st a st' :
  m st = (Ok a, st') → (m ≫= k) st = k a st'.
Proof. intros Hm. unfold mbind, View_bind, bind. by rewrite Hm. Qed.

Lemma bind_Raise {A B} (m : View A) (k : A → View B) st e st' :
  m st = (Raise e, st') → (m ≫= k) st = (Raise e, st').
Proof. intros Hm. unfold mbind, View_bind, bind. by rewrite Hm. Qed.

Lemma Task_objects_get_Some st pk task :
  tasks st !! pk = Some task → Task_objects_get pk st = (Ok task, st).
Proof. intros Hpk. unfold Task_objects_get. by rewrite Hpk. Qed.

Lemma Task_objects_get_None st pk :
  tasks st !! pk = None → Task_objects_get pk st = (Raise DoesNotExist, st).
Proof. intros Hpk. unfold Task_objects_get. by rewrite Hpk. Qed.

Lemma get_object_Some st pk task :
  tasks st !! pk = Some task → get_object pk st = (Ok task, st).
Proof. intros Hpk. unfold get_object. by rewrite Hpk. Qed.

Lemma in_assignees_true st w row pk :
  (pk, w) ∈ task_assignees st →
  in_assignees (Authenticated w row) pk st = (Ok true, st).
Proof. intros Hin. unfold in_assignees. by rewrite bool_decide_eq_true_2. Qed.

Lemma in_assignees_false st u pk :
  (∀ w row, u = Authenticated w row → (pk, w) ∉ task_assignees st) →
  in_assignees u pk st = (Ok false, st).
Proof.
  intros Hout. destruct u as [|w row]; [done|].
  unfold in_assignees. rewrite bool_decide_eq_false_2; [done|]. by eapply Hout.
Qed.

Lemma toggle_completed_assignee st request pk task w row :
  tasks st !! pk = Some task →
  user request = Authenticated w row →
  (pk, w) ∈ task_assignees st →
  toggle_completed request pk st
  = (Ok (HttpResponseRedirect (reverse "core:task-detail" [pk])),
     toggled pk task st).
Proof.
  intros Hpk Hu Hin. unfold toggle_completed.
  rewrite (bind_Ok _ _ _ _ _ (Task_objects_get_Some _ _ _ Hpk)).
  rewrite Hu, (bind_Ok _ _ _ _ _ (in_assignees_true _ _ row _ Hin)).
  reflexivity.
Qed.

Lemma toggled_toggled st pk task :
  tasks st !! pk = Some task →
  toggled pk (Task.set_is_completed (negb (Task.is_completed task)) task)
    (toggled pk task st) = st.
Proof.
  intros Hpk. destruct st as [ts ws rows]. unfold toggled, set_tasks. simpl in *.
  f_equal. rewrite insert_insert_eq. apply insert_id.
  rewrite Hpk. f_equal. destruct task as [n d dl p b tt pr]. simpl.
  by rewrite negb_involutive.
Qed.

(** ** The completion toggle *)

(** C2: when the acting worker is not among the assignees of an existing
    task, [toggle_completed] answers 405 "Unauthorized" and the store, and
    so the task and its completion flag, is what it was. *)
Theorem toggle_completed_non_assignee st request pk task :
  tasks st !! pk = Some task →
  (∀ w row, user request = Authenticated w row →
            (pk, w) ∉ task_assignees st) →
  ∃ response st',
    toggle_completed request pk st = (Ok response, st')
    ∧ response = HttpResponse "Unauthorized" 405
    ∧ status_code response = 405
    ∧ st' = st
    ∧ tasks st' !! pk = Some task.
Proof.
  intros Hpk Hout. eexists _, _. split; [|done].
  unfold toggle_completed.
  rewrite (bind_Ok _ _ _ _ _ (Task_objects_get_Some _ _ _ Hpk)).
  by rewrite (bind_Ok _ _ _ _ _ (in_assignees_false _ _ _ Hout)).
Qed.

(** C3: when the acting worker is among the assignees of the task, one call
    of [toggle_completed] saves the task with its completion flag negated,
    leaves every other column, every other task, the workers and the
    assignments alone, and answers with a 302 redirect to the detail page of
    the task. *)
Theorem toggle_completed_by_assignee st request pk task w row :
  tasks st !! pk = Some task →
  user request = Authenticated w row →
  (pk, w) ∈ task_assignees st →
  ∃ response st' task',
    toggle_completed request pk st = (Ok response, st')
    ∧ response = HttpResponseRedirect (reverse "core:task-detail" [pk])
    ∧ status_code response = 302
    ∧ tasks st' !! pk = Some task'
    ∧ Task.is_completed task' = negb (Task.is_completed task)
    ∧ task' = Task.set_is_completed (Task.is_completed task') task
    ∧ (∀ pk', pk' ≠ pk → tasks st' !! pk' = tasks st !! pk')
    ∧ workers st' = workers st
    ∧ task_assignees st' = task_assignees st.
Proof.
  intros Hpk Hu Hin. eexists _, _, _.
  split; [by eapply toggle_completed_assignee|].
  split; [done|]. split; [done|].
  split; [apply lookup_insert_eq|].
  split; [done|]. split; [done|].
  split; [|done].
  intros pk' Hne. simpl. by rewrite lookup_insert_ne.
Qed.

(** C8: for a key that identifies no task, [toggle_completed] raises the
    [DoesNotExist] of the lookup, returns no response and leaves the store as
    it was; for a key that identifies a task the lookup succeeds and a
    response is returned. *)
Theorem toggle_completed_lookup st request pk :
  (tasks st !! pk = None →
     toggle_completed request pk st = (Raise DoesNotExist, st))
  ∧ (is_Some (tasks st !! pk) →
     ∃ response st', toggle_completed request pk st = (Ok response, st')).
Proof.
  split.
  - intros Hpk. unfold toggle_completed.
    by rewrite (bind_Raise _ _ _ _ _ (Task_objects_get_None _ _ Hpk)).
  - intros [task Hpk]. unfold toggle_completed.
    rewrite (bind_Ok _ _ _ _ _ (Task_objects_get_Some _ _ _ Hpk)).
    destruct (user request) as [|w row]; simpl.
    + by eexists _, _.
    + unfold mbind, View_bind, bind, in_assignees.
      case_bool_decide; by eexists _, _.
Qed.

(** C9: two calls in a row by an assignee bring the completion flag of the
    task, and the whole store, back to where they were. *)
Theorem toggle_completed_involution st request pk task w row :
  tasks st !! pk = Some task →
  user request = Authenticated w row →
  (pk, w) ∈ task_assignees st →
  ∃ response1 st1 response2 st2,
    toggle_completed request pk st = (Ok response1, st1)
    ∧ toggle_completed request pk st1 = (Ok response2, st2)
    ∧ Task.is_completed <$> tasks st1 !! pk
      = Some (negb (Task.is_completed task))
    ∧ Task.is_completed <$> tasks st2 !! pk = Some (Task.is_completed task)
    ∧ st2 = st.
Proof.
  intros Hpk Hu Hin.
  pose proof (toggle_completed_assignee _ _ _ _ _ _ Hpk Hu Hin) as H1.
  assert (tasks (toggled pk task st) !! pk
          = Some (Task.set_is_completed (negb (Task.is_completed task)) task))
    as Hpk1 by apply lookup_insert_eq.
  pose proof (toggle_completed_assignee (toggled pk task st) _ _ _ _ _
                Hpk1 Hu Hin) as H2.
  rewrite (toggled_toggled _ _ _ Hpk) in H2.
  eexists _, _, _, _. split; [exact H1|]. split; [exact H2|].
  split; [by rewrite Hpk1|]. split; [by rewrite Hpk|done].
Qed.

(** ** The task listing *)

(** A flag that is not in a given list of flags. *)
Ltac not_listed H :=
  exfalso; apply (bool_decide_pack _) in H; vm_compute in H; exact H.

Section TaskListView_properties.
Variable int : string → option Z.
Variable today : Z.

Lemma get_queryset_lookup st request segment project :
  split "/" (absolute_uri request) !! 4%nat = Some segment →
  int segment = Some project →
  ∃ queryset,
    TaskListView.get_queryset int today request st = (Ok queryset, st)
    ∧ ∀ pk task,
        queryset !! pk = Some task
        ↔ tasks st !! pk = Some task
          ∧ selected today (GET_filters request) project task.
Proof.
  intros Hseg Hint. unfold TaskListView.get_queryset.
  rewrite (bind_Ok _ _ st (tasks st) st); [|done].
  rewrite (bind_Ok _ _ st segment st);
    [|by unfold index; rewrite Hseg].
  erewrite (bind_Ok _ _ st _ st);
    [|by unfold TaskListView.filter_project_id; rewrite Hint].
  eexists. split; [reflexivity|].
  intros pk task. unfold selected.
  repeat case_bool_decide;
    rewrite ?map_lookup_filter_Some; simpl; intuition.
Qed.

Lemma get_queryset_IndexError st request :
  split "/" (absolute_uri request) !! 4%nat = None →
  TaskListView.get_queryset int today request st = (Raise IndexError, st).
Proof.
  intros Hseg. unfold TaskListView.get_queryset.
  rewrite (bind_Ok _ _ st (tasks st) st); [|done].
  by rewrite (bind_Raise _ _ st IndexError st);
    [|unfold index; rewrite Hseg].
Qed.

Lemma get_queryset_ValueError st request segment :
  split "/" (absolute_uri request) !! 4%nat = Some segment →
  int segment = None →
  TaskListView.get_queryset int today request st = (Raise ValueError, st).
Proof.
  intros Hseg Hint. unfold TaskListView.get_queryset.
  rewrite (bind_Ok _ _ st (tasks st) st); [|done].
  rewrite (bind_Ok _ _ st segment st);
    [|by unfold index; rewrite Hseg].
  by rewrite (bind_Raise _ _ st ValueError st);
    [|unfold TaskListView.filter_project_id; rewrite Hint].
Qed.

(** C4: whatever the filter flags, the listing requested for a project is
    produced, and every task in it is a task of the store whose project is
    that project. *)
Theorem get_queryset_only_project st request segment project :
  split "/" (absolute_uri request) !! 4%nat = Some segment →
  int segment = Some project →
  ∃ queryset,
    TaskListView.get_queryset int today request st = (Ok queryset, st)
    ∧ ∀ pk task,
        queryset !! pk = Some task →
        tasks st !! pk = Some task ∧ Task.project_id task = project.
Proof.
  intros Hseg Hint.
  destruct (get_queryset_lookup st _ _ _ Hseg Hint) as (qs & Hrun & Hqs).
  exists qs. split; [done|].
  intros pk task [Hpk [Hproject _]]%Hqs. done.
Qed.

(** C5: for two requests for the same project, one with the single flag
    [done] and one with no flag, the first lists exactly the completed
    tasks of the project, the second exactly the others, and every task of
    the project is in one of the two listings and not in the other. *)
Theorem get_queryset_done_partition st done_request default_request
    segment project :
  split "/" (absolute_uri done_request) !! 4%nat = Some segment →
  split "/" (absolute_uri default_request) !! 4%nat = Some segment →
  int segment = Some project →
  GET_filters done_request = ["done"] →
  GET_filters default_request = [] →
  ∃ done_list default_list,
    TaskListView.get_queryset int today done_request st
    = (Ok done_list, st)
    ∧ TaskListView.get_queryset int today default_request st
      = (Ok default_list, st)
    ∧ (∀ pk task,
         done_list !! pk = Some task
         ↔ tasks st !! pk = Some task ∧ Task.project_id task = project
           ∧ Task.is_completed task = true)
    ∧ (∀ pk task,
         default_list !! pk = Some task
         ↔ tasks st !! pk = Some task ∧ Task.project_id task = project
           ∧ Task.is_completed task = false)
    ∧ (∀ pk task,
         tasks st !! pk = Some task → Task.project_id task = project →
         (done_list !! pk = Some task ∧ default_list !! pk = None)
         ∨ (done_list !! pk = None ∧ default_list !! pk = Some task)).
Proof.
  intros Hseg1 Hseg2 Hint Hdone Hdefault.
  destruct (get_queryset_lookup st _ _ _ Hseg1 Hint) as (qs1 & Hrun1 & Hqs1).
  destruct (get_queryset_lookup st _ _ _ Hseg2 Hint) as (qs2 & Hrun2 & Hqs2).
  unfold selected in *. rewrite Hdone in Hqs1. rewrite Hdefault in Hqs2.
  assert (∀ pk task,
            qs1 !! pk = Some task
            ↔ tasks st !! pk = Some task ∧ Task.project_id task = project
              ∧ Task.is_completed task = true) as Hdone_list.
  { intros pk task. rewrite Hqs1. simpl.
    split; [tauto|]. intros (? & ? & ?).
    repeat split; try done; intros Hin; not_listed Hin. }
  assert (∀ pk task,
            qs2 !! pk = Some task
            ↔ tasks st !! pk = Some task ∧ Task.project_id task = project
              ∧ Task.is_completed task = false) as Hdefault_list.
  { intros pk task. rewrite Hqs2. simpl.
    split; [tauto|]. intros (? & ? & ?).
    repeat split; try done; intros Hin; not_listed Hin. }
  exists qs1, qs2. do 4 (split; [done|]).
  intros pk task Hpk Hproject.
  destruct (Task.is_completed task) eqn:Hflag.
  - left. split; [by apply Hdone_list|].
    destruct (qs2 !! pk) as [task'|] eqn:Hpk2; [|done].
    apply Hdefault_list in Hpk2 as (Hpk' & _ & Hflag'). congruence.
  - right. split; [|by apply Hdefault_list].
    destruct (qs1 !! pk) as [task'|] eqn:Hpk1; [|done].
    apply Hdone_list in Hpk1 as (Hpk' & _ & Hflag'). congruence.
Qed.

Lemma get_queryset_eq st request segment project (expected : gmap Z Task.t) :
  split "/" (absolute_uri request) !! 4%nat = Some segment →
  int segment = Some project →
  (∀ pk task,
     expected !! pk = Some task
     ↔ tasks st !! pk = Some task
       ∧ selected today (GET_filters request) project task) →
  TaskListView.get_queryset int today request st = (Ok expected, st).
Proof.
  intros Hseg Hint Hexpected.
  destruct (get_queryset_lookup st _ _ _ Hseg Hint) as (qs & -> & Hqs).
  do 2 f_equal. apply map_eq. intros pk. apply option_eq. intros task.
  by rewrite Hqs, Hexpected.
Qed.

(** C6: the listing is the tasks of the project that pass every selected
    filter (deadline strictly before today under [past_dl], priority equal
    to "Urgent" under [urgent], completed under [done] and not completed
    without it).  For a project whose tasks are T1 (not done, urgent, due
    yesterday) and T2 (done), the flags [past_dl] and [urgent] list T1
    alone, the flag [done] lists T2 alone, and no flag lists T1 alone. *)
Theorem get_queryset_filters :
  (∀ st request segment project,
     split "/" (absolute_uri request) !! 4%nat = Some segment →
     int segment = Some project →
     ∃ queryset,
       TaskListView.get_queryset int today request st = (Ok queryset, st)
       ∧ ∀ pk task,
           queryset !! pk = Some task
           ↔ tasks st !! pk = Some task
             ∧ Task.project_id task = project
             ∧ ("past_dl" ∈ GET_filters request →
                Task.deadline task < today)
             ∧ ("urgent" ∈ GET_filters request →
                Task.priority task = "Urgent")
             ∧ Task.is_completed task
               = bool_decide ("done" ∈ GET_filters request))
  ∧ (∀ st request segment project pk1 T1 pk2 T2,
       split "/" (absolute_uri request) !! 4%nat = Some segment →
       int segment = Some project →
       pk1 ≠ pk2 →
       tasks st = {[pk1 := T1; pk2 := T2]} →
       Task.project_id T1 = project → Task.project_id T2 = project →
       Task.is_completed T1 = false → Task.priority T1 = "Urgent" →
       Task.deadline T1 = today - 1 →
       Task.is_completed T2 = true →
       let listing filters :=
         TaskListView.get_queryset int today
           (mkRequest (method request) (user request)
              (absolute_uri request) filters (GET_name request)) st in
       listing ["past_dl"; "urgent"] = (Ok {[pk1 := T1]}, st)
       ∧ listing ["done"] = (Ok {[pk2 := T2]}, st)
       ∧ listing [] = (Ok {[pk1 := T1]}, st)).
Proof.
  split.
  - intros st request segment project Hseg Hint.
    apply (get_queryset_lookup st _ _ _ Hseg Hint).
  - intros st request segment project pk1 T1 pk2 T2 Hseg Hint Hne Hst
      Hp1 Hp2 Hc1 Hu1 Hd1 Hc2 listing.
    assert (∀ pk task,
              tasks st !! pk = Some task
              ↔ (pk = pk1 ∧ task = T1) ∨ (pk = pk2 ∧ task = T2)) as Hrows.
    { intros pk task. rewrite Hst, lookup_insert_Some, lookup_singleton_Some.
      split; [intros [[<- <-]|[_ [<- <-]]]; tauto|].
      intros [[-> ->]|[-> ->]]; [by left|right; by split]. }
    unfold listing.
    split; [|split]; (eapply get_queryset_eq; [exact Hseg|exact Hint|]);
      intros pk task; rewrite Hrows, lookup_singleton_Some;
      unfold selected; simpl.
    + split.
      * intros [-> <-]. split; [by left|].
        repeat split; try done. intros _. lia.
      * intros [[[-> ->]|[-> ->]] (_ & _ & _ & Hflag)];
          [done|congruence].
    + split.
      * intros [-> <-]. split; [by right|].
        repeat split; try done; intros Hin; not_listed Hin.
      * intros [[[-> ->]|[-> ->]] (_ & _ & _ & Hflag)];
          [congruence|done].
    + split.
      * intros [-> <-]. split; [by left|].
        repeat split; try done; intros Hin; not_listed Hin.
      * intros [[[-> ->]|[-> ->]] (_ & _ & _ & Hflag)];
          [done|congruence].
Qed.
End TaskListView_properties.

(** ** The worker listing *)

Lemma startswith_spec s p :
  startswith s p = true ↔ ∃ after, s = p +:+ after.
Proof.
  revert s. induction p as [|a p IH]; intros s; simpl.
  - destruct s; simpl; (split; [eauto|done]).
  - destruct s as [|b s]; simpl.
    + split; [done|]. by intros [after Heq].
    + rewrite andb_true_iff, IH, Ascii.eqb_eq. split.
      * intros [-> [after ->]]. eauto.
      * intros [after Heq]. injection Heq as -> ->. eauto.
Qed.

Lemma contains_spec s sub :
  contains s sub = true ↔ ∃ before after, s = before +:+ sub +:+ after.
Proof.
  induction s as [|c s IH]; cbn [contains].
  - rewrite orb_false_r, startswith_spec. split.
    + intros [after ->]. by exists "", after.
    + intros (before & after & Heq). destruct before; [|done]. eauto.
  - rewrite orb_true_iff, startswith_spec, IH. split.
    + intros [[after ->]|(before & after & ->)].
      * by exists "", after.
      * by exists (String c before), after.
    + intros (before & after & Heq). destruct before as [|c' before].
      * left. eauto.
      * right. injection Heq as -> ->. eauto.
Qed.

(** [lower_ascii] reads the twenty-six capital letters as their small
    letters and keeps every other byte. *)
Lemma lower_ascii_translate c :
  lower_ascii c = translate ascii_uppercase ascii_lowercase c.
Proof. by destruct c as [[] [] [] [] [] [] [] []]. Qed.

Lemma lower_fold_ascii s : lower s = fold_ascii s.
Proof.
  induction s as [|c s IH]; [done|].
  cbn [lower fold_ascii]. by rewrite lower_ascii_translate, IH.
Qed.

Lemma icontains_spec value pattern :
  icontains value pattern = true ↔ occurs_ignoring_ascii_case pattern value.
Proof.
  unfold icontains, occurs_ignoring_ascii_case.
  rewrite <- !lower_fold_ascii. apply contains_spec.
Qed.

Lemma WorkerListView_search st request name :
  GET_name request = Some name → name ≠ "" →
  WorkerListView.get_queryset request st
  = (Ok (filter (λ row, icontains (Worker.first_name row.2) name
                        || icontains (Worker.last_name row.2) name = true)
           (workers st)), st).
Proof.
  intros Hname Hne. unfold WorkerListView.get_queryset. rewrite Hname.
  by destruct name.
Qed.



(** C10: without a search parameter, or with the empty one, the listing is
    the whole worker table; and the count put in the context is the size of
    the worker table whatever the request searches for. *)
Theorem WorkerListView_no_search :
  (∀ st request,
     GET_name request = None ∨ GET_name request = Some "" →
     WorkerListView.get_queryset request st = (Ok (workers st), st))
  ∧ (∀ st request,
       ∃ context,
         WorkerListView.get_context_data request st = (Ok context, st)
         ∧ WorkerListView.num_workers context = size (workers st)).
Proof.
  split.
  - intros st request [Hname|Hname];
      unfold WorkerListView.get_queryset; by rewrite Hname.
  - intros st request. by eexists.
Qed.

(** ** Updating and deleting a task *)

(** The guard of [get]: a task of another project is answered 405
    "Unauthorized" and nothing is written. *)
Lemma guarded_get_rejects template st request pk task w row :
  tasks st !! pk = Some task →
  user request = Authenticated w row →
  Task.project_id task ≠ Worker.project_id row →
  guarded_get template request pk st
  = (Ok (HttpResponse "Unauthorized" 405), st).
Proof.
  intros Hpk Hu Hne. unfold guarded_get.
  rewrite (bind_Ok _ _ _ _ _ (get_object_Some _ _ _ Hpk)).
  rewrite Hu. simpl. unfold mbind, View_bind, bind. simpl.
  by rewrite bool_decide_eq_true_2.
Qed.

Lemma dispatch_GET_rejects template post st request pk task w row :
  method request = GET →
  tasks st !! pk = Some task →
  user request = Authenticated w row →
  Task.project_id task ≠ Worker.project_id row →
  dispatch_with (guarded_get template) post request pk st
  = (Ok (HttpResponse "Unauthorized" 405), st).
Proof.
  intros Hm Hpk Hu Hne. unfold dispatch_with. rewrite Hu, Hm.
  by eapply guarded_get_rejects.
Qed.

(** The inherited [post] of the delete view never looks at the project of
    the acting worker. *)
Lemma TaskDeleteView_post_deletes st request pk task :
  tasks st !! pk = Some task →
  ∃ st',
    TaskDeleteView.post request pk st
    = (Ok (HttpResponseRedirect
             (reverse "core:task-list" [Task.project_id task])), st')
    ∧ tasks st' !! pk = None
    ∧ ∀ pk', pk' ≠ pk → tasks st' !! pk' = tasks st !! pk'.
Proof.
  intros Hpk. eexists. split; [|split].
  - unfold TaskDeleteView.post.
    rewrite (bind_Ok _ _ _ _ _ (get_object_Some _ _ _ Hpk)).
    unfold TaskDeleteView.get_success_url, get_success_url.
    erewrite bind_Ok;
      [|by rewrite (bind_Ok _ _ _ _ _ (get_object_Some _ _ _ Hpk))].
    reflexivity.
  - apply lookup_delete_eq.
  - intros pk' Hne. simpl. by rewrite lookup_delete_ne.
Qed.

(** Neither does the inherited [post] of the update view: whatever the
    form accepts is saved. *)
Lemma TaskUpdateView_post_saves TaskForm st request pk task cleaned :
  tasks st !! pk = Some task →
  TaskForm request task = Some cleaned →
  ∃ st',
    TaskUpdateView.post TaskForm request pk st
    = (Ok (HttpResponseRedirect
             (reverse "core:task-list" [Task.project_id cleaned.1])), st')
    ∧ tasks st' !! pk = Some cleaned.1.
Proof.
  intros Hpk Hform. eexists. split.
  - unfold TaskUpdateView.post.
    rewrite (bind_Ok _ _ _ _ _ (get_object_Some _ _ _ Hpk)), Hform.
    erewrite bind_Ok; [|reflexivity].
    unfold TaskUpdateView.get_success_url, get_success_url.
    erewrite bind_Ok; [reflexivity|].
    erewrite bind_Ok; [reflexivity|].
    apply get_object_Some. apply lookup_insert_eq.
  - apply lookup_insert_eq.
Qed.

(** C1 fails on the code: the guard sits in [get] alone.  Bob, of project
    2, sends a GET and then a POST to the delete view of task 1 of project
    1.  The GET is answered 405 "Unauthorized" and writes nothing; the POST
    is answered with a 302 redirect to the task list of project 1, and the
    task and its assignment are gone from the store. *)
Theorem TaskDeleteView_post_foreign_project :
  Task.project_id Sample.T1 ≠ Worker.project_id Sample.bob
  ∧ tasks Sample.store !! 1 = Some Sample.T1
  ∧ TaskDeleteView.dispatch (Sample.bob_on_task_1 GET) 1 Sample.store
    = (Ok (HttpResponse "Unauthorized" 405), Sample.store)
  ∧ TaskDeleteView.dispatch (Sample.bob_on_task_1 POST) 1 Sample.store
    = (Ok (HttpResponseRedirect (reverse "core:task-list" [1])),
       {| tasks := {[2 := Sample.T2]}; workers := workers Sample.store;
          task_assignees := ∅ |}).
Proof.
  split; [by vm_compute|]. split; [by vm_compute|].
  split; by vm_compute.
Qed.

(** ** The theorems at the sample store *)

Ltac by_computation := vm_compute; first [reflexivity | exact I | done].

Lemma toggle_completed_non_assignee_witness :
  ∃ response st',
    toggle_completed (Sample.bob_on_task_1 POST) 1 Sample.store
    = (Ok response, st')
    ∧ response = HttpResponse "Unauthorized" 405
    ∧ status_code response = 405
    ∧ st' = Sample.store
    ∧ tasks st' !! 1 = Some Sample.T1.
Proof.
  apply (toggle_completed_non_assignee Sample.store
           (Sample.bob_on_task_1 POST) 1 Sample.T1).
  - reflexivity.
  - intros w row Hu. injection Hu as <- <-.
    apply (bool_decide_unpack _). by_computation.
Defined.

Lemma toggle_completed_by_assignee_witness :
  ∃ response st' task',
    toggle_completed Sample.ana_on_task_1 1 Sample.store = (Ok response, st')
    ∧ response = HttpResponseRedirect (reverse "core:task-detail" [1])
    ∧ status_code response = 302
    ∧ tasks st' !! 1 = Some task'
    ∧ Task.is_completed task' = negb (Task.is_completed Sample.T1)
    ∧ task' = Task.set_is_completed (Task.is_completed task') Sample.T1
    ∧ (∀ pk', pk' ≠ 1 → tasks st' !! pk' = tasks Sample.store !! pk')
    ∧ workers st' = workers Sample.store
    ∧ task_assignees st' = task_assignees Sample.store.
Proof.
  apply (toggle_completed_by_assignee Sample.store Sample.ana_on_task_1 1
           Sample.T1 5 Sample.ana).
  - reflexivity.
  - reflexivity.
  - apply (bool_decide_unpack _). by_computation.
Defined.

Lemma toggle_completed_lookup_witness :
  toggle_completed Sample.ana_on_task_1 3 Sample.store
  = (Raise DoesNotExist, Sample.store)
  ∧ ∃ response st',
      toggle_completed Sample.ana_on_task_1 1 Sample.store
      = (Ok response, st').
Proof.
  split.
  - apply (proj1 (toggle_completed_lookup Sample.store
                    Sample.ana_on_task_1 3)).
    reflexivity.
  - apply (proj2 (toggle_completed_lookup Sample.store
                    Sample.ana_on_task_1 1)).
    exists Sample.T1. reflexivity.
Defined.

Lemma toggle_completed_involution_witness :
  ∃ response1 st1 response2 st2,
    toggle_completed Sample.ana_on_task_1 1 Sample.store = (Ok response1, st1)
    ∧ toggle_completed Sample.ana_on_task_1 1 st1 = (Ok response2, st2)
    ∧ Task.is_completed <$> tasks st1 !! 1
      = Some (negb (Task.is_completed Sample.T1))
    ∧ Task.is_completed <$> tasks st2 !! 1
      = Some (Task.is_completed Sample.T1)
    ∧ st2 = Sample.store.
Proof.
  apply (toggle_completed_involution Sample.store Sample.ana_on_task_1 1
           Sample.T1 5 Sample.ana).
  - reflexivity.
  - reflexivity.
  - apply (bool_decide_unpack _). by_computation.
Defined.

Lemma get_queryset_only_project_witness :
  ∃ queryset,
    TaskListView.get_queryset decimal Sample.today
      (Sample.task_list ["urgent"]) Sample.store
    = (Ok queryset, Sample.store)
    ∧ ∀ pk task,
        queryset !! pk = Some task →
        tasks Sample.store !! pk = Some task ∧ Task.project_id task = 1.
Proof.
  apply (get_queryset_only_project decimal Sample.today Sample.store
           (Sample.task_list ["urgent"]) "1" 1).
  - reflexivity.
  - reflexivity.
Defined.

Lemma get_queryset_done_partition_witness :
  ∃ done_list default_list,
    TaskListView.get_queryset decimal Sample.today
      (Sample.task_list ["done"]) Sample.store
    = (Ok done_list, Sample.store)
    ∧ TaskListView.get_queryset decimal Sample.today
        (Sample.task_list []) Sample.store
      = (Ok default_list, Sample.store)
    ∧ (∀ pk task,
         done_list !! pk = Some task
         ↔ tasks Sample.store !! pk = Some task ∧ Task.project_id task = 1
           ∧ Task.is_completed task = true)
    ∧ (∀ pk task,
         default_list !! pk = Some task
         ↔ tasks Sample.store !! pk = Some task ∧ Task.project_id task = 1
           ∧ Task.is_completed task = false)
    ∧ (∀ pk task,
         tasks Sample.store !! pk = Some task → Task.project_id task = 1 →
         (done_list !! pk = Some task ∧ default_list !! pk = None)
         ∨ (done_list !! pk = None ∧ default_list !! pk = Some task)).
Proof.
  apply (get_queryset_done_partition decimal Sample.today Sample.store
           (Sample.task_list ["done"]) (Sample.task_list []) "1" 1).
  - reflexivity.
  - reflexivity.
  - reflexivity.
  - reflexivity.
  - reflexivity.
Defined.

Lemma get_queryset_filters_witness :
  (∃ queryset,
     TaskListView.get_queryset decimal Sample.today
       (Sample.task_list ["past_dl"; "urgent"]) Sample.store
     = (Ok queryset, Sample.store)
     ∧ queryset !! 1 = Some Sample.T1 ∧ queryset !! 2 = None)
  ∧ TaskListView.get_queryset decimal Sample.today
      (Sample.task_list ["past_dl"; "urgent"]) Sample.store
    = (Ok {[1 := Sample.T1]}, Sample.store)
  ∧ TaskListView.get_queryset decimal Sample.today
      (Sample.task_list ["done"]) Sample.store
    = (Ok {[2 := Sample.T2]}, Sample.store)
  ∧ TaskListView.get_queryset decimal Sample.today
      (Sample.task_list []) Sample.store
    = (Ok {[1 := Sample.T1]}, Sample.store).
Proof.
  split.
  - destruct (proj1 (get_queryset_filters decimal Sample.today) Sample.store
                (Sample.task_list ["past_dl"; "urgent"]) "1" 1)
      as (queryset & Hrun & Hrows); [reflexivity|reflexivity|].
    exists queryset. split; [exact Hrun|]. split.
    + apply Hrows. split; [reflexivity|].
      split; [reflexivity|]. split; [intros _; by_computation|].
      split; [intros _; reflexivity|reflexivity].
    + destruct (queryset !! 2) as [task|] eqn:Hpk; [|reflexivity].
      apply Hrows in Hpk as (Hpk & _ & _ & _ & Hflag).
      injection Hpk as <-. discriminate Hflag.
  - apply (proj2 (get_queryset_filters decimal Sample.today) Sample.store
             (Sample.task_list []) "1" 1 1 Sample.T1 2 Sample.T2);
      by_computation.
Defined.


Lemma WorkerListView_no_search_witness :
  WorkerListView.get_queryset (Sample.worker_list None) Sample.store
  = (Ok (workers Sample.store), Sample.store)
  ∧ WorkerListView.get_queryset (Sample.worker_list (Some "")) Sample.store
    = (Ok (workers Sample.store), Sample.store)
  ∧ ∃ context,
      WorkerListView.get_context_data (Sample.worker_list (Some "ana"))
        Sample.store
      = (Ok context, Sample.store)
      ∧ WorkerListView.num_workers context = size (workers Sample.store).
Proof.
  split; [|split].
  - apply (proj1 WorkerListView_no_search Sample.store
             (Sample.worker_list None)).
    left. reflexivity.
  - apply (proj1 WorkerListView_no_search Sample.store
             (Sample.worker_list (Some ""))).
    right. reflexivity.
  - apply (proj2 WorkerListView_no_search Sample.store
             (Sample.worker_list (Some "ana"))).
Defined.

(** * Further properties *)

(** ** What a toggle leaves alone, and what it moves *)

Lemma set_is_completed_same task :
  Task.set_is_completed (Task.is_completed task) task = task.
Proof. by destruct task. Qed.

(** The three ways a call can end. *)
Lemma toggle_completed_cases st request pk :
  (tasks st !! pk = None
   ∧ toggle_completed request pk st = (Raise DoesNotExist, st))
  ∨ (is_Some (tasks st !! pk)
     ∧ toggle_completed request pk st
       = (Ok (HttpResponse "Unauthorized" 405), st))
  ∨ (∃ task,
       tasks st !! pk = Some task
       ∧ toggle_completed request pk st
         = (Ok (HttpResponseRedirect (reverse "core:task-detail" [pk])),
            toggled pk task st)).
Proof.
  destruct (tasks st !! pk) as [task|] eqn:Hpk.
  - right.
    assert (Decision (∃ w row, user request = Authenticated w row
                               ∧ (pk, w) ∈ task_assignees st)) as [Hin|Hout].
    { destruct (user request) as [|w row].
      - right. by intros (? & ? & ? & _).
      - destruct (decide ((pk, w) ∈ task_assignees st)) as [Hin|Hout].
        + left. by exists w, row.
        + right. intros (? & ? & Hu & Hin). by injection Hu as <- <-. }
    + destruct Hin as (w & row & Hu & Hin). right. exists task.
      split; [done|]. by eapply toggle_completed_assignee.
    + left. split; [done|]. unfold toggle_completed.
      rewrite (bind_Ok _ _ _ _ _ (Task_objects_get_Some _ _ _ Hpk)).
      rewrite (bind_Ok _ _ st false st); [done|].
      apply in_assignees_false. intros w row Hu Hin. apply Hout. eauto.
  - left. split; [done|]. unfold toggle_completed.
    by rewrite (bind_Raise _ _ _ _ _ (Task_objects_get_None _ _ Hpk)).
Qed.

(** X1: whoever calls [toggle_completed], on whatever key and however the
    call ends, the workers and the assignments are untouched, no task is
    created or deleted, the tasks under other keys keep their rows, and the
    task under the key keeps every column but its completion flag. *)
Theorem toggle_completed_frame st request pk :
  let st' := (toggle_completed request pk st).2 in
  workers st' = workers st
  ∧ task_assignees st' = task_assignees st
  ∧ dom (tasks st') = dom (tasks st)
  ∧ ∀ pk' task,
      tasks st !! pk' = Some task →
      ∃ flag,
        tasks st' !! pk' = Some (Task.set_is_completed flag task)
        ∧ (pk' ≠ pk → flag = Task.is_completed task).
Proof.
  assert (∀ pk' task,
            tasks st !! pk' = Some task →
            ∃ flag,
              tasks st !! pk' = Some (Task.set_is_completed flag task)
              ∧ (pk' ≠ pk → flag = Task.is_completed task)) as Hsame.
  { intros pk' task Hpk'. exists (Task.is_completed task).
    by rewrite set_is_completed_same. }
  destruct (toggle_completed_cases st request pk)
    as [[_ ->]|[[_ ->]|(task & Hpk & ->)]]; simpl; try done.
  split; [done|]. split; [done|]. split.
  - simpl. by apply dom_insert_lookup_L.
  - intros pk' task' Hpk'. destruct (decide (pk' = pk)) as [->|Hne].
    + rewrite Hpk in Hpk'. injection Hpk' as <-.
      exists (negb (Task.is_completed task)).
      by rewrite lookup_insert_eq.
    + exists (Task.is_completed task').
      by rewrite lookup_insert_ne, set_is_completed_same.
Qed.

Section toggle_and_listing.
Variable int : string → option Z.
Variable today : Z.

(** X2: a toggle by an assignee moves the task from one of the two
    listings of its project to the other.  The listing asked for with the
    flag [done] holds the task before the call exactly when its flag was
    set and after the call exactly when it was not, and holds the same
    other tasks before and after. *)
Theorem toggle_completed_moves_task st request pk task w row
    list_request segment :
  tasks st !! pk = Some task →
  user request = Authenticated w row →
  (pk, w) ∈ task_assignees st →
  split "/" (absolute_uri list_request) !! 4%nat = Some segment →
  int segment = Some (Task.project_id task) →
  GET_filters list_request = ["done"] →
  ∃ response st' before after,
    toggle_completed request pk st = (Ok response, st')
    ∧ TaskListView.get_queryset int today list_request st = (Ok before, st)
    ∧ TaskListView.get_queryset int today list_request st' = (Ok after, st')
    ∧ (is_Some (before !! pk) ↔ Task.is_completed task = true)
    ∧ (is_Some (after !! pk) ↔ Task.is_completed task = false)
    ∧ ∀ pk', pk' ≠ pk → after !! pk' = before !! pk'.
Proof.
  intros Hpk Hu Hin Hseg Hint Hfilters.
  destruct (get_queryset_lookup int today st _ _ _ Hseg Hint)
    as (before & Hbefore & Hb).
  destruct (get_queryset_lookup int today (toggled pk task st) _ _ _
              Hseg Hint) as (after & Hafter & Ha).
  exists (HttpResponseRedirect (reverse "core:task-detail" [pk])),
    (toggled pk task st), before, after.
  split; [by eapply toggle_completed_assignee|].
  split; [done|]. split; [done|].
  unfold selected in *. rewrite Hfilters in Hb, Ha. simpl in Hb, Ha.
  split; [|split].
  - split.
    + intros [task' Hrow]. apply Hb in Hrow as (Hrow & _ & _ & _ & Hflag).
      congruence.
    + intros Hflag. exists task. apply Hb.
      repeat split; try done; intros Hno; not_listed Hno.
  - split.
    + intros [task' Hrow]. apply Ha in Hrow as (Hrow & _ & _ & _ & Hflag).
      rewrite lookup_insert_eq in Hrow. injection Hrow as <-.
      simpl in Hflag. by apply negb_true_iff.
    + intros Hflag. eexists. apply Ha. rewrite lookup_insert_eq.
      split; [reflexivity|]. simpl. rewrite Hflag.
      repeat split; try done; intros Hno; not_listed Hno.
  - intros pk' Hne. apply option_eq. intros task'.
    rewrite Ha, Hb. simpl. by rewrite lookup_insert_ne.
Qed.
End toggle_and_listing.

(** ** The dashboard *)

Lemma index_authenticated st request w row :
  user request = Authenticated w row →
  Dashboard.index request st
  = (Ok (Dashboard.render "core/index.html"
           {| Dashboard.workers_amount :=
                size (filter (λ r, Worker.project_id r.2
                                   = Worker.project_id row) (workers st));
              Dashboard.tasks_total_amount :=
                size (filter (λ r, Task.project_id r.2
                                   = Worker.project_id row) (tasks st));
              Dashboard.tasks_done :=
                size (filter (λ r, Task.is_completed r.2 = true
                                   ∧ Task.project_id r.2
                                     = Worker.project_id row) (tasks st))
           |}), st).
Proof. intros Hu. unfold Dashboard.index. by rewrite Hu. Qed.

(** The number of rows that pass a test, when one row is written. *)
Lemma size_filter_insert {A} (P : Z * A → Prop) `{!∀ x, Decision (P x)}
    (m : gmap Z A) pk x :
  size (filter P (<[pk := x]> m))
  = ((if decide (P (pk, x)) then 1 else 0)
     + size (filter P (delete pk m)))%nat.
Proof.
  rewrite <- (insert_delete_eq m). case_decide as HP.
  - rewrite map_filter_insert_True by done.
    rewrite map_size_insert_None; [done|].
    apply map_lookup_filter_None. left. apply lookup_delete_eq.
  - rewrite map_filter_insert_False by done. by rewrite delete_delete_eq.
Qed.

Lemma size_filter_lookup {A} (P : Z * A → Prop) `{!∀ x, Decision (P x)}
    (m : gmap Z A) pk x :
  m !! pk = Some x →
  size (filter P m)
  = ((if decide (P (pk, x)) then 1 else 0)
     + size (filter P (delete pk m)))%nat.
Proof.
  intros Hpk. rewrite <- (insert_id m pk x Hpk) at 1.
  apply size_filter_insert.
Qed.

Section dashboard_and_listing.
Variable int : string → option Z.
Variable today : Z.

(** X3: the counts of the dashboard are the sizes of the listings of the
    project of the acting worker: [tasks_done] is the size of the listing
    asked for with the flag [done], [tasks_total_amount] is that size plus
    the size of the listing asked for without a flag, so [tasks_done] never
    exceeds [tasks_total_amount]. *)
Theorem index_counts_are_listing_sizes st request w row
    done_request default_request segment :
  user request = Authenticated w row →
  split "/" (absolute_uri done_request) !! 4%nat = Some segment →
  split "/" (absolute_uri default_request) !! 4%nat = Some segment →
  int segment = Some (Worker.project_id row) →
  GET_filters done_request = ["done"] →
  GET_filters default_request = [] →
  ∃ context done_list default_list,
    Dashboard.index request st
    = (Ok (Dashboard.render "core/index.html" context), st)
    ∧ TaskListView.get_queryset int today done_request st
      = (Ok done_list, st)
    ∧ TaskListView.get_queryset int today default_request st
      = (Ok default_list, st)
    ∧ Dashboard.tasks_done context = size done_list
    ∧ Dashboard.tasks_total_amount context
      = (size done_list + size default_list)%nat
    ∧ (Dashboard.tasks_done context
       ≤ Dashboard.tasks_total_amount context)%nat.
Proof.
  intros Hu Hseg1 Hseg2 Hint Hdone Hdefault.
  set (project := Worker.project_id row) in *.
  set (mine := filter (λ r : Z * Task.t, Task.project_id r.2 = project)
                 (tasks st)).
  set (is_done := λ r : Z * Task.t, Task.is_completed r.2 = true).
  assert (TaskListView.get_queryset int today done_request st
          = (Ok (filter is_done mine), st)) as Hrun1.
  { eapply get_queryset_eq; [exact Hseg1|exact Hint|].
    intros pk task. unfold selected. rewrite Hdone. simpl.
    unfold mine, is_done. rewrite !map_lookup_filter_Some. simpl.
    split; [|tauto]. intros ((? & ?) & ?).
    repeat split; try done; intros Hno; not_listed Hno. }
  assert (TaskListView.get_queryset int today default_request st
          = (Ok (filter (λ r, ¬ is_done r) mine), st)) as Hrun2.
  { eapply get_queryset_eq; [exact Hseg2|exact Hint|].
    intros pk task. unfold selected. rewrite Hdefault. simpl.
    unfold mine, is_done. rewrite !map_lookup_filter_Some. simpl.
    rewrite not_true_iff_false.
    split; [|tauto]. intros ((? & ?) & ?).
    repeat split; try done; intros Hno; not_listed Hno. }
  assert (size mine = (size (filter is_done mine)
                       + size (filter (λ r, ¬ is_done r) mine))%nat)
    as Hsplit.
  { rewrite <- map_size_disj_union
      by apply map_disjoint_filter_complement.
    by rewrite map_filter_union_complement. }
  assert (size (filter (λ r : Z * Task.t,
                          Task.is_completed r.2 = true
                          ∧ Task.project_id r.2 = project) (tasks st))
          = size (filter is_done mine)) as Hdone_size.
  { unfold mine. by rewrite map_filter_filter. }
  eexists _, _, _.
  split; [by eapply index_authenticated|].
  split; [exact Hrun1|]. split; [exact Hrun2|]. simpl.
  split; [exact Hdone_size|].
  fold project. fold mine. rewrite Hdone_size, Hsplit.
  split; [done|lia].
Qed.
End dashboard_and_listing.

(** X4: the dashboard of a worker whose row is in the worker table counts
    that worker, and none of its counts exceeds the size of its table. *)
Theorem index_counts_bounds st request w row :
  user request = Authenticated w row →
  workers st !! w = Some row →
  ∃ context,
    Dashboard.index request st
    = (Ok (Dashboard.render "core/index.html" context), st)
    ∧ (1 ≤ Dashboard.workers_amount context ≤ size (workers st))%nat
    ∧ (Dashboard.tasks_done context
       ≤ Dashboard.tasks_total_amount context ≤ size (tasks st))%nat.
Proof.
  intros Hu Hrow. eexists. split; [by eapply index_authenticated|]. simpl.
  split; [split|split].
  - rewrite (size_filter_lookup _ _ w row Hrow).
    rewrite decide_True by done. lia.
  - apply map_size_filter.
  - apply map_subseteq_size. apply map_subseteq_spec. intros pk task.
    rewrite !map_lookup_filter_Some. tauto.
  - apply map_size_filter.
Qed.

(** X5: after a toggle by an assignee of a task of the worker's own
    project, the dashboard of that worker shows the same number of workers
    and of tasks, and one more completed task if the task was open, one
    less if it was completed. *)
Theorem index_after_toggle st request pk task w row :
  tasks st !! pk = Some task →
  user request = Authenticated w row →
  (pk, w) ∈ task_assignees st →
  Task.project_id task = Worker.project_id row →
  ∃ before response st' after,
    Dashboard.index request st
    = (Ok (Dashboard.render "core/index.html" before), st)
    ∧ toggle_completed request pk st = (Ok response, st')
    ∧ Dashboard.index request st'
      = (Ok (Dashboard.render "core/index.html" after), st')
    ∧ Dashboard.workers_amount after = Dashboard.workers_amount before
    ∧ Dashboard.tasks_total_amount after
      = Dashboard.tasks_total_amount before
    ∧ (if Task.is_completed task
       then Dashboard.tasks_done before = S (Dashboard.tasks_done after)
       else Dashboard.tasks_done after = S (Dashboard.tasks_done before)).
Proof.
  intros Hpk Hu Hin Hproject. eexists _, _, _, _.
  split; [by eapply index_authenticated|].
  split; [by eapply toggle_completed_assignee|].
  split; [by eapply index_authenticated|]. simpl.
  split; [done|]. split.
  - rewrite size_filter_insert, (size_filter_lookup _ _ pk task Hpk).
    simpl. rewrite !decide_True by done. done.
  - rewrite size_filter_insert, (size_filter_lookup _ (tasks st) pk task Hpk).
    simpl. destruct (Task.is_completed task); simpl;
      repeat case_decide; first [lia | exfalso; intuition congruence].
Qed.

(** ** Cutting an URI into pieces *)

Lemma append_String c (a b : string) :
  String c a +:+ b = String c (a +:+ b).
Proof. reflexivity. Qed.

Lemma append_empty_r (s : string) : s +:+ "" = s.
Proof.
  induction s as [|c s IH]; [done|]. by rewrite append_String, IH.
Qed.


Lemma split_not_nil sep s : split sep s ≠ [].
Proof.
  induction s as [|c s IH]; simpl; [done|].
  destruct (Ascii.eqb c sep); [done|]. by destruct (split sep s).
Qed.

Lemma count_String sep c s :
  count sep (String c s) = 0%nat ↔ Ascii.eqb c sep = false ∧ count sep s = 0%nat.
Proof. simpl. destruct (Ascii.eqb c sep); simpl; [|tauto]. split; [lia|]. by intros [? _]. Qed.

(** A piece without separator in front of a string joins the first piece of
    that string. *)
Lemma split_app sep a b :
  count sep a = 0%nat →
  split sep (a +:+ b)
  = match split sep b with
    | piece :: pieces => (a +:+ piece) :: pieces
    | [] => [a]
    end.
Proof.
  induction a as [|c a IH]; intros Hcount.
  - simpl. destruct (split sep b) eqn:Hb; [|done].
    by apply split_not_nil in Hb.
  - apply count_String in Hcount as [Hc Hcount].
    change (String c a +:+ b) with (String c (a +:+ b)).
    cbn [split]. rewrite Hc, (IH Hcount).
    by destruct (split sep b).
Qed.

Lemma split_cut sep a b :
  count sep a = 0%nat →
  split sep (a +:+ String sep b) = a :: split sep b.
Proof.
  intros Hcount. rewrite (split_app _ _ _ Hcount). cbn [split].
  by rewrite Ascii.eqb_refl, append_empty_r.
Qed.

Lemma split_whole sep a : count sep a = 0%nat → split sep a = [a].
Proof.
  intros Hcount. rewrite <- (append_empty_r a) at 1.
  rewrite (split_app _ _ _ Hcount). simpl. by rewrite append_empty_r.
Qed.

(** X7: joining the pieces of [split] with the separator gives the string
    back, no piece holds the separator, and there is one piece more than
    there are separators in the string. *)
Theorem join_split sep s :
  join sep (split sep s) = s
  ∧ Forall (λ piece, count sep piece = 0%nat) (split sep s)
  ∧ length (split sep s) = S (count sep s).
Proof.
  induction s as [|c s (IHjoin & IHpieces & IHlength)]; simpl.
  - split; [done|]. split; [|done]. by constructor.
  - destruct (Ascii.eqb c sep) eqn:Hc.
    + apply Ascii.eqb_eq in Hc as ->. split; [|split].
      * destruct (split sep s) eqn:Hs; [by apply split_not_nil in Hs|].
        by rewrite <- IHjoin.
      * by constructor.
      * simpl. by rewrite IHlength.
    + destruct (split sep s) as [|piece pieces] eqn:Hs;
        [by apply split_not_nil in Hs|].
      split; [|split].
      * rewrite <- IHjoin. by destruct pieces.
      * inversion IHpieces as [|? ? Hpiece Hrest]; subst.
        constructor; [|done]. apply count_String. by split.
      * simpl in *. by rewrite IHlength.
Qed.

(** X8: cutting what [join] made of pieces that hold no separator gives the
    pieces back, provided there is at least one piece. *)
Theorem split_join sep pieces :
  pieces ≠ [] →
  Forall (λ piece, count sep piece = 0%nat) pieces →
  split sep (join sep pieces) = pieces.
Proof.
  intros Hne Hpieces. induction Hpieces as [|piece rest Hpiece Hrest IH];
    [done|].
  destruct rest as [|piece' rest].
  - simpl. by apply split_whole.
  - change (join sep (piece :: piece' :: rest))
      with (piece +:+ String sep (join sep (piece' :: rest))).
    rewrite (split_cut _ _ _ Hpiece). f_equal. by apply IH.
Qed.

Lemma split_join_witness :
  split "/" (join "/" ["http:"; ""; "testserver"; "projects"; "1"; "tasks"; ""])
  = ["http:"; ""; "testserver"; "projects"; "1"; "tasks"; ""].
Proof.
  apply (split_join "/"
           ["http:"; ""; "testserver"; "projects"; "1"; "tasks"; ""]).
  - discriminate.
  - repeat constructor.
Defined.

Section TaskListView_uri.
Variable int : string → option Z.
Variable today : Z.

(** X9: the listing raises [IndexError] exactly when the URI of the request
    holds fewer than four slashes; the store is left as it was. *)
Theorem get_queryset_IndexError_iff st request :
  TaskListView.get_queryset int today request st = (Raise IndexError, st)
  ↔ (count "/" (absolute_uri request) < 4)%nat.
Proof.
  destruct (join_split "/" (absolute_uri request)) as (_ & _ & Hlength).
  split.
  - intros Hrun.
    destruct (split "/" (absolute_uri request) !! 4%nat) as [segment|]
      eqn:Hseg.
    + exfalso. destruct (int segment) as [project|] eqn:Hint.
      * destruct (get_queryset_lookup int today st _ _ _ Hseg Hint)
          as (queryset & Hok & _). congruence.
      * pose proof (get_queryset_ValueError int today st _ _ Hseg Hint).
        congruence.
    + apply lookup_ge_None in Hseg. lia.
  - intros Hshort. apply get_queryset_IndexError.
    apply lookup_ge_None. lia.
Qed.

(** X10: for an URI of the shape scheme://host/prefix/id/rest, whose
    scheme, host, prefix and id hold no slash, the listing is the one of
    the project the id converts to, whatever follows it; when the id does
    not convert, the listing raises [ValueError]. *)
Theorem get_queryset_project_of_uri st request scheme host prefix id rest :
  absolute_uri request
  = scheme +:+ "://" +:+ host +:+ "/" +:+ prefix +:+ "/" +:+ id +:+ "/"
    +:+ rest →
  count "/" scheme = 0%nat → count "/" host = 0%nat →
  count "/" prefix = 0%nat → count "/" id = 0%nat →
  match int id with
  | Some project =>
      ∃ queryset,
        TaskListView.get_queryset int today request st = (Ok queryset, st)
        ∧ ∀ pk task,
            queryset !! pk = Some task
            ↔ tasks st !! pk = Some task
              ∧ selected today (GET_filters request) project task
  | None =>
      TaskListView.get_queryset int today request st = (Raise ValueError, st)
  end.
Proof.
  intros Huri Hscheme Hhost Hprefix Hid.
  assert (split "/" (absolute_uri request) !! 4%nat = Some id) as Hseg.
  { rewrite Huri.
    change (scheme +:+ "://" +:+ host +:+ "/" +:+ prefix +:+ "/" +:+ id
            +:+ "/" +:+ rest)
      with (scheme +:+ String ":" (String "/" (String "/"
              (host +:+ String "/" (prefix +:+ String "/"
                 (id +:+ String "/" rest)))))).
    rewrite (split_app _ _ _ Hscheme). cbn [split Ascii.eqb Bool.eqb].
    rewrite (split_cut _ _ _ Hhost), (split_cut _ _ _ Hprefix),
      (split_cut _ _ _ Hid).
    reflexivity. }
  destruct (int id) as [project|] eqn:Hint.
  - by apply get_queryset_lookup with id.
  - by apply get_queryset_ValueError with id.
Qed.
End TaskListView_uri.

(** ** Searching workers *)

Lemma occurs_ignoring_ascii_case_empty s : occurs_ignoring_ascii_case "" s.
Proof. by exists "", (fold_ascii s). Qed.

Lemma occurs_ignoring_ascii_case_same a s :
  fold_ascii a = fold_ascii s → occurs_ignoring_ascii_case a s.
Proof.
  intros Heq. exists "", "". rewrite Heq, append_empty_r. reflexivity.
Qed.


(** The listing of a request that carries a search string, empty or not. *)
Lemma WorkerListView_lookup st request name :
  GET_name request = Some name →
  ∃ queryset,
    WorkerListView.get_queryset request st = (Ok queryset, st)
    ∧ ∀ pk worker,
        queryset !! pk = Some worker
        ↔ workers st !! pk = Some worker
          ∧ (occurs_ignoring_ascii_case name (Worker.first_name worker)
             ∨ occurs_ignoring_ascii_case name (Worker.last_name worker)).
Proof.
  intros Hname. destruct (decide (name = "")) as [->|Hne].
  - exists (workers st).
    split; [unfold WorkerListView.get_queryset; by rewrite Hname|].
    intros pk worker. split; [|tauto].
    intros Hrow. split; [done|]. left. apply occurs_ignoring_ascii_case_empty.
  - eexists. split; [by apply WorkerListView_search|].
    intros pk worker.
    by rewrite map_lookup_filter_Some, orb_true_iff, !icontains_spec.
Qed.

(** X11: two search strings that differ in letter case only give the same
    listing. *)
Theorem WorkerListView_search_ignores_case st request1 request2 name1 name2 :
  GET_name request1 = Some name1 →
  GET_name request2 = Some name2 →
  lower name1 = lower name2 →
  WorkerListView.get_queryset request1 st
  = WorkerListView.get_queryset request2 st.
Proof.
  intros Hname1 Hname2 Hlower. unfold WorkerListView.get_queryset.
  rewrite Hname1, Hname2.
  destruct name1 as [|c1 name1], name2 as [|c2 name2]; try done.
  simpl. unfold icontains. by rewrite Hlower.
Qed.

Lemma WorkerListView_search_ignores_case_witness :
  WorkerListView.get_queryset (Sample.worker_list (Some "ANA")) Sample.store
  = WorkerListView.get_queryset (Sample.worker_list (Some "ana"))
      Sample.store.
Proof.
  apply (WorkerListView_search_ignores_case Sample.store
           (Sample.worker_list (Some "ANA")) (Sample.worker_list (Some "ana"))
           "ANA" "ana").
  - reflexivity.
  - reflexivity.
  - reflexivity.
Defined.



(** X13: a worker of the table is listed by a search for the whole of
    their first name or of their last name, with the ASCII letters A to Z
    typed in either case and every other character typed as it is
    stored. *)
Theorem WorkerListView_search_finds_name_ascii st request name pk worker :
  GET_name request = Some name →
  workers st !! pk = Some worker →
  fold_ascii name = fold_ascii (Worker.first_name worker)
  ∨ fold_ascii name = fold_ascii (Worker.last_name worker) →
  ∃ queryset,
    WorkerListView.get_queryset request st = (Ok queryset, st)
    ∧ queryset !! pk = Some worker.
Proof.
  intros Hname Hrow Hsame.
  destruct (WorkerListView_lookup st _ _ Hname) as (qs & Hrun & Hqs).
  exists qs. split; [done|]. apply Hqs. split; [done|].
  destruct Hsame as [Hfirst|Hlast];
    [left|right]; by apply occurs_ignoring_ascii_case_same.
Qed.

Lemma WorkerListView_search_finds_name_ascii_witness :
  ∃ queryset,
    WorkerListView.get_queryset (Sample.worker_list (Some "RUIZ"))
      Sample.store = (Ok queryset, Sample.store)
    ∧ queryset !! 6 = Some Sample.juliana.
Proof.
  apply (WorkerListView_search_finds_name_ascii Sample.store
           (Sample.worker_list (Some "RUIZ")) "RUIZ" 6 Sample.juliana).
  - reflexivity.
  - reflexivity.
  - right. reflexivity.
Defined.

(** ** Editing one's own profile *)

Lemma filter_key (m : gmap Z Worker.t) pk :
  filter (λ row, row.1 = pk) m
  = match m !! pk with
    | Some worker => {[pk := worker]}
    | None => ∅
    end.
Proof.
  apply map_eq. intros pk'. apply option_eq. intros worker.
  rewrite map_lookup_filter_Some. simpl.
  destruct (m !! pk) as [own|] eqn:Hpk.
  - rewrite lookup_singleton_Some. split.
    + intros [Hrow ->]. split; [done|congruence].
    + intros [<- <-]. by split.
  - rewrite lookup_empty. split; [|done]. intros [Hrow ->]. congruence.
Qed.

(** X6: the rows the profile form can edit are the row of the acting
    worker and no other: the queryset is that row alone when it is in the
    table, and empty otherwise and for the anonymous user; the store is
    only read. *)
Theorem WorkerUpdateView_get_queryset_own_row st request :
  ∃ queryset,
    WorkerUpdateView.get_queryset request st = (Ok queryset, st)
    ∧ (∀ pk worker,
         queryset !! pk = Some worker
         ↔ workers st !! pk = Some worker
           ∧ ∃ row, user request = Authenticated pk row)
    ∧ (size queryset ≤ 1)%nat.
Proof.
  unfold WorkerUpdateView.get_queryset.
  destruct (user request) as [|own row].
  - exists ∅. split; [done|]. split; [|rewrite map_size_empty; lia].
    intros pk worker. rewrite lookup_empty. split; [done|].
    by intros (_ & ? & ?).
  - eexists. split; [done|]. rewrite filter_key. split.
    + intros pk worker. destruct (workers st !! own) as [mine|] eqn:Hown.
      * rewrite lookup_singleton_Some. split.
        -- intros [<- <-]. split; [done|]. by exists row.
        -- intros (Hrow & row' & Hu). injection Hu as <- <-.
           split; [done|congruence].
      * rewrite lookup_empty. split; [done|].
        intros (Hrow & row' & Hu). injection Hu as <- <-. congruence.
    + destruct (workers st !! own).
      * by rewrite map_size_singleton.
      * rewrite map_size_empty. lia.
Qed.

(** ** The guard of the update and delete pages *)

Lemma get_object_None st pk :
  tasks st !! pk = None → get_object pk st = (Raise Http404, st).
Proof. intros Hpk. unfold get_object. by rewrite Hpk. Qed.

Lemma guarded_get_accepts template st request pk task w row :
  tasks st !! pk = Some task →
  user request = Authenticated w row →
  Task.project_id task = Worker.project_id row →
  guarded_get template request pk st = (Ok (TemplateResponse template), st).
Proof.
  intros Hpk Hu Heq. unfold guarded_get.
  rewrite (bind_Ok _ _ _ _ _ (get_object_Some _ _ _ Hpk)).
  rewrite Hu. simpl. unfold mbind at 1, View_bind, bind. simpl.
  rewrite bool_decide_eq_false_2 by (intros Hne; by apply Hne).
  unfold super_get. by rewrite (bind_Ok _ _ _ _ _ (get_object_Some _ _ _ Hpk)).
Qed.

Lemma guarded_get_store template st request pk :
  (guarded_get template request pk st).2 = st.
Proof.
  destruct (tasks st !! pk) as [task|] eqn:Hpk.
  - destruct (user request) as [|w row] eqn:Hu.
    + unfold guarded_get.
      rewrite (bind_Ok _ _ _ _ _ (get_object_Some _ _ _ Hpk)).
      by rewrite Hu.
    + destruct (decide (Task.project_id task = Worker.project_id row))
        as [Heq|Hne].
      * by rewrite (guarded_get_accepts _ _ _ _ _ _ _ Hpk Hu Heq).
      * by rewrite (guarded_get_rejects _ _ _ _ _ _ _ Hpk Hu Hne).
  - unfold guarded_get.
    by rewrite (bind_Raise _ _ _ _ _ (get_object_None _ _ Hpk)).
Qed.

(** X14: for an existing task and a logged-in worker, the [get] of the
    update view and of the delete view answer 405 "Unauthorized" when the
    project of the task is not the project of the worker, and with the page
    of the view (status 200) when it is; neither writes to the store. *)
Theorem Task_views_get_guard st request pk task w row :
  tasks st !! pk = Some task →
  user request = Authenticated w row →
  ∃ update_response delete_response,
    TaskUpdateView.get request pk st = (Ok update_response, st)
    ∧ TaskDeleteView.get request pk st = (Ok delete_response, st)
    ∧ (Task.project_id task ≠ Worker.project_id row →
       update_response = HttpResponse "Unauthorized" 405
       ∧ delete_response = HttpResponse "Unauthorized" 405)
    ∧ (Task.project_id task = Worker.project_id row →
       status_code update_response = 200
       ∧ status_code delete_response = 200).
Proof.
  intros Hpk Hu. unfold TaskUpdateView.get, TaskDeleteView.get.
  destruct (decide (Task.project_id task = Worker.project_id row))
    as [Heq|Hne].
  - rewrite !(guarded_get_accepts _ _ _ _ _ _ _ Hpk Hu Heq).
    eexists _, _. by repeat split.
  - rewrite !(guarded_get_rejects _ _ _ _ _ _ _ Hpk Hu Hne).
    eexists _, _. by repeat split.
Qed.

Lemma Task_views_get_guard_witness :
  ∃ update_response delete_response,
    TaskUpdateView.get (Sample.bob_on_task_1 GET) 1 Sample.store
    = (Ok update_response, Sample.store)
    ∧ TaskDeleteView.get (Sample.bob_on_task_1 GET) 1 Sample.store
      = (Ok delete_response, Sample.store)
    ∧ (Task.project_id Sample.T1 ≠ Worker.project_id Sample.bob →
       update_response = HttpResponse "Unauthorized" 405
       ∧ delete_response = HttpResponse "Unauthorized" 405)
    ∧ (Task.project_id Sample.T1 = Worker.project_id Sample.bob →
       status_code update_response = 200
       ∧ status_code delete_response = 200).
Proof.
  apply (Task_views_get_guard Sample.store (Sample.bob_on_task_1 GET) 1
           Sample.T1 7 Sample.bob).
  - reflexivity.
  - reflexivity.
Defined.

(** X15: a GET on the update or the delete view, and any request of the
    anonymous user, leaves the store as it was, whatever the key, the
    worker and the outcome. *)
Theorem Task_views_read_only TaskForm st request pk :
  method request = GET ∨ user request = AnonymousUser →
  (TaskUpdateView.dispatch TaskForm request pk st).2 = st
  ∧ (TaskDeleteView.dispatch request pk st).2 = st.
Proof.
  intros Hsafe.
  unfold TaskUpdateView.dispatch, TaskDeleteView.dispatch, dispatch_with.
  destruct (user request) as [|w row] eqn:Hu; [done|].
  destruct Hsafe as [->|?]; [|done].
  unfold TaskUpdateView.get, TaskDeleteView.get.
  by rewrite !guarded_get_store.
Qed.

Lemma Task_views_read_only_witness :
  (TaskUpdateView.dispatch (λ _ task, Some (task, ∅))
     (Sample.bob_on_task_1 GET) 1 Sample.store).2 = Sample.store
  ∧ (TaskDeleteView.dispatch (Sample.bob_on_task_1 GET) 1 Sample.store).2
    = Sample.store.
Proof.
  apply (Task_views_read_only (λ _ task, Some (task, ∅)) Sample.store
           (Sample.bob_on_task_1 GET) 1).
  left. reflexivity.
Defined.

(** X16: for a key that identifies no task, the update and delete views
    raise [Http404] to a logged-in worker, on GET and on POST alike, and
    write nothing; the toggle raises [DoesNotExist] for the same key. *)
Theorem Task_views_missing_key TaskForm st request pk w row :
  tasks st !! pk = None →
  user request = Authenticated w row →
  TaskUpdateView.dispatch TaskForm request pk st = (Raise Http404, st)
  ∧ TaskDeleteView.dispatch request pk st = (Raise Http404, st)
  ∧ toggle_completed request pk st = (Raise DoesNotExist, st).
Proof.
  intros Hpk Hu.
  unfold TaskUpdateView.dispatch, TaskDeleteView.dispatch, dispatch_with.
  rewrite Hu.
  assert (∀ template,
            guarded_get template request pk st = (Raise Http404, st))
    as Hget.
  { intros template. unfold guarded_get.
    by rewrite (bind_Raise _ _ _ _ _ (get_object_None _ _ Hpk)). }
  split; [|split].
  - destruct (method request); [apply Hget|].
    unfold TaskUpdateView.post.
    by rewrite (bind_Raise _ _ _ _ _ (get_object_None _ _ Hpk)).
  - destruct (method request); [apply Hget|].
    unfold TaskDeleteView.post.
    by rewrite (bind_Raise _ _ _ _ _ (get_object_None _ _ Hpk)).
  - unfold toggle_completed.
    by rewrite (bind_Raise _ _ _ _ _ (Task_objects_get_None _ _ Hpk)).
Qed.

Lemma Task_views_missing_key_witness :
  TaskUpdateView.dispatch (λ _ task, Some (task, ∅))
    (Sample.bob_on_task_1 POST) 3 Sample.store
  = (Raise Http404, Sample.store)
  ∧ TaskDeleteView.dispatch (Sample.bob_on_task_1 POST) 3 Sample.store
    = (Raise Http404, Sample.store)
  ∧ toggle_completed (Sample.bob_on_task_1 POST) 3 Sample.store
    = (Raise DoesNotExist, Sample.store).
Proof.
  apply (Task_views_missing_key (λ _ task, Some (task, ∅)) Sample.store
           (Sample.bob_on_task_1 POST) 3 7 Sample.bob).
  - reflexivity.
  - reflexivity.
Defined.

(** X17: the update and delete views redirect to the task list of the
    project of the task, the create view to the task list of the project of
    the acting worker; the two URLs are the same exactly when the task is of
    the worker's project. *)
Theorem get_success_url_projects st request pk task w row :
  tasks st !! pk = Some task →
  user request = Authenticated w row →
  TaskUpdateView.get_success_url pk st
  = (Ok (reverse "core:task-list" [Task.project_id task]), st)
  ∧ TaskDeleteView.get_success_url pk st
    = (Ok (reverse "core:task-list" [Task.project_id task]), st)
  ∧ TaskCreateView.get_success_url request st
    = (Ok (reverse "core:task-list" [Worker.project_id row]), st)
  ∧ (TaskUpdateView.get_success_url pk st
     = TaskCreateView.get_success_url request st
     ↔ Task.project_id task = Worker.project_id row).
Proof.
  intros Hpk Hu.
  assert (get_success_url pk st
          = (Ok (reverse "core:task-list" [Task.project_id task]), st))
    as Htask.
  { unfold get_success_url.
    by rewrite (bind_Ok _ _ _ _ _ (get_object_Some _ _ _ Hpk)). }
  assert (TaskCreateView.get_success_url request st
          = (Ok (reverse "core:task-list" [Worker.project_id row]), st))
    as Hworker.
  { unfold TaskCreateView.get_success_url. by rewrite Hu. }
  unfold TaskUpdateView.get_success_url, TaskDeleteView.get_success_url.
  rewrite Htask, Hworker. do 3 (split; [done|]).
  split; [congruence|]. by intros ->.
Qed.

Lemma get_success_url_projects_witness :
  TaskUpdateView.get_success_url 1 Sample.store
  = (Ok (reverse "core:task-list" [Task.project_id Sample.T1]), Sample.store)
  ∧ TaskDeleteView.get_success_url 1 Sample.store
    = (Ok (reverse "core:task-list" [Task.project_id Sample.T1]),
       Sample.store)
  ∧ TaskCreateView.get_success_url (Sample.bob_on_task_1 GET) Sample.store
    = (Ok (reverse "core:task-list" [Worker.project_id Sample.bob]),
       Sample.store)
  ∧ (TaskUpdateView.get_success_url 1 Sample.store
     = TaskCreateView.get_success_url (Sample.bob_on_task_1 GET) Sample.store
     ↔ Task.project_id Sample.T1 = Worker.project_id Sample.bob).
Proof.
  apply (get_success_url_projects Sample.store (Sample.bob_on_task_1 GET) 1
           Sample.T1 7 Sample.bob).
  - reflexivity.
  - reflexivity.
Defined.

(** X18: a POST to the delete view by any logged-in worker, of whatever
    project, deletes an existing task: the answer is a redirect to the task
    list of the project the task had, the task and its assignments are gone,
    and the other tasks, the other assignments and the workers are kept. *)
Theorem TaskDeleteView_dispatch_POST st request pk task w row :
  method request = POST →
  user request = Authenticated w row →
  tasks st !! pk = Some task →
  ∃ st',
    TaskDeleteView.dispatch request pk st
    = (Ok (HttpResponseRedirect
             (reverse "core:task-list" [Task.project_id task])), st')
    ∧ tasks st' = delete pk (tasks st)
    ∧ workers st' = workers st
    ∧ ∀ task_pk worker_pk,
        (task_pk, worker_pk) ∈ task_assignees st'
        ↔ (task_pk, worker_pk) ∈ task_assignees st ∧ task_pk ≠ pk.
Proof.
  intros Hm Hu Hpk. eexists. split; [|split; [|split]].
  - unfold TaskDeleteView.dispatch, dispatch_with. rewrite Hu, Hm.
    unfold TaskDeleteView.post.
    rewrite (bind_Ok _ _ _ _ _ (get_object_Some _ _ _ Hpk)).
    unfold TaskDeleteView.get_success_url, get_success_url.
    erewrite bind_Ok;
      [|by rewrite (bind_Ok _ _ _ _ _ (get_object_Some _ _ _ Hpk))].
    reflexivity.
  - done.
  - done.
  - intros task_pk worker_pk. simpl. rewrite elem_of_filter. simpl. tauto.
Qed.

Lemma TaskDeleteView_dispatch_POST_witness :
  ∃ st',
    TaskDeleteView.dispatch (Sample.bob_on_task_1 POST) 1 Sample.store
    = (Ok (HttpResponseRedirect
             (reverse "core:task-list" [Task.project_id Sample.T1])), st')
    ∧ tasks st' = delete 1 (tasks Sample.store)
    ∧ workers st' = workers Sample.store
    ∧ ∀ task_pk worker_pk,
        (task_pk, worker_pk) ∈ task_assignees st'
        ↔ (task_pk, worker_pk) ∈ task_assignees Sample.store ∧ task_pk ≠ 1.
Proof.
  apply (TaskDeleteView_dispatch_POST Sample.store
           (Sample.bob_on_task_1 POST) 1 Sample.T1 7 Sample.bob).
  - reflexivity.
  - reflexivity.
  - reflexivity.
Defined.

(** ** The further theorems at the sample store *)

Lemma toggle_completed_moves_task_witness :
  ∃ response st' before after,
    toggle_completed Sample.ana_on_task_1 1 Sample.store = (Ok response, st')
    ∧ TaskListView.get_queryset decimal Sample.today
        (Sample.task_list ["done"]) Sample.store = (Ok before, Sample.store)
    ∧ TaskListView.get_queryset decimal Sample.today
        (Sample.task_list ["done"]) st' = (Ok after, st')
    ∧ (is_Some (before !! 1) ↔ Task.is_completed Sample.T1 = true)
    ∧ (is_Some (after !! 1) ↔ Task.is_completed Sample.T1 = false)
    ∧ ∀ pk', pk' ≠ 1 → after !! pk' = before !! pk'.
Proof.
  apply (toggle_completed_moves_task decimal Sample.today Sample.store
           Sample.ana_on_task_1 1 Sample.T1 5 Sample.ana
           (Sample.task_list ["done"]) "1").
  - reflexivity.
  - reflexivity.
  - apply (bool_decide_unpack _). by_computation.
  - reflexivity.
  - reflexivity.
  - reflexivity.
Defined.

Lemma index_counts_are_listing_sizes_witness :
  ∃ context done_list default_list,
    Dashboard.index Sample.ana_on_task_1 Sample.store
    = (Ok (Dashboard.render "core/index.html" context), Sample.store)
    ∧ TaskListView.get_queryset decimal Sample.today
        (Sample.task_list ["done"]) Sample.store
      = (Ok done_list, Sample.store)
    ∧ TaskListView.get_queryset decimal Sample.today
        (Sample.task_list []) Sample.store
      = (Ok default_list, Sample.store)
    ∧ Dashboard.tasks_done context = size done_list
    ∧ Dashboard.tasks_total_amount context
      = (size done_list + size default_list)%nat
    ∧ (Dashboard.tasks_done context
       ≤ Dashboard.tasks_total_amount context)%nat.
Proof.
  apply (index_counts_are_listing_sizes decimal Sample.today Sample.store
           Sample.ana_on_task_1 5 Sample.ana
           (Sample.task_list ["done"]) (Sample.task_list []) "1").
  - reflexivity.
  - reflexivity.
  - reflexivity.
  - reflexivity.
  - reflexivity.
  - reflexivity.
Defined.

Lemma index_counts_bounds_witness :
  ∃ context,
    Dashboard.index Sample.ana_on_task_1 Sample.store
    = (Ok (Dashboard.render "core/index.html" context), Sample.store)
    ∧ (1 ≤ Dashboard.workers_amount context ≤ size (workers Sample.store))%nat
    ∧ (Dashboard.tasks_done context
       ≤ Dashboard.tasks_total_amount context
       ≤ size (tasks Sample.store))%nat.
Proof.
  apply (index_counts_bounds Sample.store Sample.ana_on_task_1 5 Sample.ana).
  - reflexivity.
  - reflexivity.
Defined.

Lemma index_after_toggle_witness :
  ∃ before response st' after,
    Dashboard.index Sample.ana_on_task_1 Sample.store
    = (Ok (Dashboard.render "core/index.html" before), Sample.store)
    ∧ toggle_completed Sample.ana_on_task_1 1 Sample.store
      = (Ok response, st')
    ∧ Dashboard.index Sample.ana_on_task_1 st'
      = (Ok (Dashboard.render "core/index.html" after), st')
    ∧ Dashboard.workers_amount after = Dashboard.workers_amount before
    ∧ Dashboard.tasks_total_amount after
      = Dashboard.tasks_total_amount before
    ∧ Dashboard.tasks_done after = S (Dashboard.tasks_done before).
Proof.
  apply (index_after_toggle Sample.store Sample.ana_on_task_1 1 Sample.T1
           5 Sample.ana).
  - reflexivity.
  - reflexivity.
  - apply (bool_decide_unpack _). by_computation.
  - reflexivity.
Defined.

Lemma get_queryset_project_of_uri_witness :
  ∃ queryset,
    TaskListView.get_queryset decimal Sample.today
      (Sample.task_list ["urgent"]) Sample.store
    = (Ok queryset, Sample.store)
    ∧ ∀ pk task,
        queryset !! pk = Some task
        ↔ tasks Sample.store !! pk = Some task
          ∧ selected Sample.today ["urgent"] 1 task.
Proof.
  apply (get_queryset_project_of_uri decimal Sample.today Sample.store
           (Sample.task_list ["urgent"])
           "http" "testserver" "projects" "1" "tasks/").
  - reflexivity.
  - reflexivity.
  - reflexivity.
  - reflexivity.
  - reflexivity.
Defined.
